(** * static/app.js: dashboard charts and the payment status / mode coupling

    The script exists in two versions.  The first one draws the four charts
    with Chart.js defaults and couples the payment-mode selector to the
    payment-status selector through the sentinel option 'Pending'.  The second
    one adds percentage labels, tooltips and a legend to the pie and doughnut
    charts and enables the payment-mode selector only for status 'Paid'.

    Both versions are embedded here: [ScriptV1] and [ScriptV2] hold the code of
    the form coupling, [Charts] the percentage code of the second version. *)

From Stdlib Require Import Bool List String Ascii ZArith QArith Qround Qabs Lia Lqa.
From Stdlib Require Import DecimalString.
Import ListNotations.

Local Open Scope string_scope.

(** ** The two form controls *)

(** What the script reads and writes of an element: its [value] and its
    [disabled] flag.  A property assignment stores the assigned string; every
    value the script assigns ('Pending', 'UPI', the empty string) is taken to
    be an option the control offers. *)
Record Select : Type := mkSelect { value : string; disabled : bool }.

Definition set_value (v : string) (s : Select) : Select :=
  {| value := v; disabled := disabled s |}.

Definition set_disabled (b : bool) (s : Select) : Select :=
  {| value := value s; disabled := b |}.

(** The two elements the handler closes over once both were found. *)
Record Form : Type := mkForm { statusSel : Select; modeSel : Select }.

Definition with_mode (m : Select) (f : Form) : Form :=
  {| statusSel := statusSel f; modeSel := m |}.

Definition with_status (s : Select) (f : Form) : Form :=
  {| statusSel := s; modeSel := modeSel f |}.

(** The page: [getElementById] may find no element, and the status selector
    carries the listeners registered for its 'change' event. *)
Record Page : Type := mkPage {
  payStatus : option Select;
  payMode : option Select;
  onChange : list (Form -> Form)
}.

Definition getForm (p : Page) : option Form :=
  match payStatus p, payMode p with
  | Some s, Some m => Some (mkForm s m)
  | _, _ => None
  end.

Definition putForm (f : Form) (p : Page) : Page :=
  {| payStatus := Some (statusSel f);
     payMode := Some (modeSel f);
     onChange := onChange p |}.

Definition addEventListener (h : Form -> Form) (p : Page) : Page :=
  {| payStatus := payStatus p; payMode := payMode p;
     onChange := onChange p ++ [h] |}.

(** A served page: both selectors present, pre-filled, nothing registered. *)
Definition page_of (f : Form) : Page :=
  {| payStatus := Some (statusSel f); payMode := Some (modeSel f);
     onChange := [] |}.

(** The listeners run in registration order. *)
Definition dispatch (hs : list (Form -> Form)) (f : Form) : Form :=
  fold_left (fun g h => h g) hs f.

(** What a user can do to the two controls. *)
Inductive event : Type :=
| ChangeStatus (v : string)   (* pick a status: the value changes, 'change' fires *)
| ChangeMode (v : string).    (* pick a mode: refused by a disabled control *)

Definition step (p : Page) (e : event) : Page :=
  match getForm p with
  | None => p
  | Some f =>
      match e with
      | ChangeStatus v =>
          putForm (dispatch (onChange p) (with_status (set_value v (statusSel f)) f)) p
      | ChangeMode v =>
          if disabled (modeSel f) then p
          else putForm (with_mode (set_value v (modeSel f)) f) p
      end
  end.

Definition run (es : list event) (p : Page) : Page := fold_left step es p.

(** The form after the user picked status [v] on a page whose status selector
    has [sync] as its listener; [None] when a selector is missing. *)
Definition after_change (sync : Form -> Form) (f : Form) (v : string) : option Form :=
  getForm (step (addEventListener sync (page_of f)) (ChangeStatus v)).

(** ** First version of the script (lines 18-28) *)
Module ScriptV1.

(** [sync], lines 22-25. *)
Definition sync (f : Form) : Form :=
  if value (statusSel f) =? "Pending" then
    with_mode (set_disabled true (set_value "Pending" (modeSel f))) f
  else
    let m := if value (modeSel f) =? "Pending"
             then set_value "UPI" (modeSel f) else modeSel f in
    with_mode (set_disabled false m) f.

(** The part of the DOMContentLoaded handler after the charts, lines 19-28. *)
Definition onDOMContentLoaded (p : Page) : Page :=
  match getForm p with
  | Some f => putForm (sync f) (addEventListener sync p)
  | None => p
  end.

End ScriptV1.

(** ** Second version of the script (lines 132-147) *)
Module ScriptV2.

(** [sync], lines 137-144. *)
Definition sync (f : Form) : Form :=
  if value (statusSel f) =? "Paid" then
    with_mode (set_disabled false (modeSel f)) f
  else
    with_mode (set_disabled true (set_value "" (modeSel f))) f.

(** The part of the DOMContentLoaded handler after the charts, lines 133-147. *)
Definition onDOMContentLoaded (p : Page) : Page :=
  match getForm p with
  | Some f => putForm (sync f) (addEventListener sync p)
  | None => p
  end.

End ScriptV2.

(** ** The coupling between two events *)

(** The state that the second version keeps between events. *)
Definition coupled_v2 (p : Page) : Prop :=
  onChange p = [ScriptV2.sync] /\
  exists f, getForm p = Some f /\
    ((value (statusSel f) = "Paid" /\ disabled (modeSel f) = false) \/
     (value (statusSel f) <> "Paid" /\ modeSel f = mkSelect "" true)).

(** The state that the first version keeps between events. *)
Definition coupled_v1 (p : Page) : Prop :=
  onChange p = [ScriptV1.sync] /\
  exists f, getForm p = Some f /\
    ((value (statusSel f) = "Pending" /\ modeSel f = mkSelect "Pending" true) \/
     (value (statusSel f) <> "Pending" /\ disabled (modeSel f) = false)).

(** ** Percentages of the pie and doughnut charts (second version) *)
Module Charts.

Local Open Scope Q_scope.

(** *** Numbers

    The chart data are finite sums of amounts and counts.  A number is
    modelled by the rational it denotes, with exact arithmetic: rounding to
    binary64, overflow, infinities and NaN are outside this model.  A
    division by zero therefore has no value here; it is signalled as an
    error, so that a theorem saying that a callback returns also says that
    the callback divides by a non-zero number only.  Where the engine rounds
    a quotient, the digit that [toFixed] writes for it can differ from the one
    written here. *)
Inductive exn : Type :=
| DivisionByZero
| TypeError (msg : string).

Inductive result (A : Type) : Type :=
| Ok (a : A)
| Throw (e : exn).
Arguments Ok {A} a.
Arguments Throw {A} e.

Definition bind {A B : Type} (c : result A) (k : A -> result B) : result B :=
  match c with
  | Ok a => k a
  | Throw e => Throw e
  end.

Notation "x <- c ;; k" := (bind c (fun x => k))
  (at level 61, c at next level, right associativity).

(** [total ? ... : ...]: zero is the only falsy number of the model. *)
Definition truthy (x : Q) : bool := negb (Qeq_bool x 0).

(** [a / b]. *)
Definition divide (a b : Q) : result Q :=
  if Qeq_bool b 0 then Throw DivisionByZero else Ok (a / b).

(** [isNaN(val)]: every number of the model is a number. *)
Definition isNaN (x : Q) : bool := false.

(** [data.reduce((a, b) => a + b, 0)]. *)
Definition reduce_add (data : list Q) : Q := fold_left Qplus data 0.

(** [x || []]. *)
Definition or_empty (x : option (list Q)) : list Q :=
  match x with
  | Some l => l
  | None => []
  end.

(** [data[i] ?? 0]: an index past the end reads [undefined]. *)
Definition at_or_zero (data : list Q) (i : nat) : Q :=
  match nth_error data i with
  | Some v => v
  | None => 0
  end.

(** *** Numbers as text *)

Definition digits (z : Z) : string := NilZero.string_of_int (Z.to_int z).

Definition is_negative (x : Q) : bool := negb (Qle_bool 0 x).

(** The integer [n] of [Number.prototype.toFixed] for one fraction digit:
    [n / 10] is as close to the magnitude of [x] as possible, the larger [n]
    on a tie. *)
Definition nearest_tenths (x : Q) : Z := Qfloor (Qabs x * 10 + (1 # 2)).

(** [x.toFixed(1)], for magnitudes below 1e21: sign, integer digits, a point,
    one fraction digit. *)
Definition toFixed1 (x : Q) : string :=
  let n := nearest_tenths x in
  ((if is_negative x then "-" else "")
     ++ digits (n / 10) ++ "." ++ digits (n mod 10))%string.

(** The fraction digits of [r / den], for [0 <= r < den], until the expansion
    ends or [fuel] digits are written. *)
Fixpoint fraction_digits (fuel : nat) (r den : Z) : string :=
  match fuel with
  | O => ""
  | S k =>
      if (r =? 0)%Z then ""
      else (digits (r * 10 / den) ++ fraction_digits k (r * 10 mod den) den)%string
  end.

(** [String(x)] in plain decimal notation, the notation of the engine for the
    magnitudes of amounts and counts (from 1e-6 up to 1e21): an integer prints
    its digits, a decimal fraction prints its expansion.  The expansion stops
    after twenty fraction digits, where the engine would stop at the shortest
    digits that identify the binary64 number. *)
Definition Number_toString (x : Q) : string :=
  let num := Z.abs (Qnum x) in
  let den := Zpos (Qden x) in
  let r := (num mod den)%Z in
  ((if is_negative x then "-" else "")
     ++ digits (num / den)
     ++ (if (r =? 0)%Z then "" else "." ++ fraction_digits 20 r den))%string.

(** The two kinds of value that the callbacks bind to [pct]: the string of
    [toFixed] or the number 0. *)
Inductive jsval : Type :=
| Num (x : Q)
| Str (s : string).

(** The conversion of a template literal, [`${v}`]. *)
Definition to_string (v : jsval) : string :=
  match v with
  | Num x => Number_toString x
  | Str s => s
  end.

(** *** What the callbacks read of Chart.js *)

Record Style : Type := mkStyle {
  backgroundColor : string;
  borderColor : string;
  borderWidth : Q
}.

(** An arc of the dataset meta. *)
Record ArcElement : Type := mkArc { arc_hidden : bool }.

Record Chart : Type := mkChart {
  labels : list string;             (* chart.data.labels *)
  data : option (list Q);           (* chart.data.datasets[0].data *)
  meta_data : list ArcElement;      (* chart.getDatasetMeta(0).data *)
  getStyle : nat -> Style           (* meta.controller.getStyle *)
}.

Record TooltipItem : Type := mkTooltipItem {
  label : string;                   (* context.label *)
  parsed : Q;                       (* context.parsed *)
  dataset_data : option (list Q)    (* context.dataset.data *)
}.

Record LegendItem : Type := mkLegendItem {
  text : string;
  fillStyle : string;
  strokeStyle : string;
  lineWidth : Q;
  hidden : bool;
  index : nat
}.

(** [meta.data[i].hidden]: reading a property of [undefined] throws. *)
Definition hidden_at (meta : list ArcElement) (i : nat) : result bool :=
  match nth_error meta i with
  | Some e => Ok (arc_hidden e)
  | None => Throw (TypeError "Cannot read properties of undefined (reading 'hidden')")
  end.

(** *** percentOpts (lines 34-61), used by the doughnut chart *)

(** [percentOpts.plugins.datalabels.formatter], lines 37-43. *)
Definition formatter (value : Q) (ctx : Chart) : result string :=
  let data := or_empty (data ctx) in
  let total := reduce_add data in
  pct <- (if truthy total then divide (value * 100) total else Ok 0) ;;
  (* show for slices >= 3% *)
  Ok (if Qle_bool 3 pct then toFixed1 pct ++ "%" else "")%string.

(** [percentOpts.plugins.tooltip.callbacks.label], lines 51-57. *)
Definition tooltip_label (context : TooltipItem) : result string :=
  let data := or_empty (dataset_data context) in
  let total := reduce_add data in
  let val := parsed context in
  pct <- (if truthy total
          then q <- divide (val * 100) total ;; Ok (Str (toFixed1 q))
          else Ok (Num 0)) ;;
  Ok (label context ++ ": " ++ Number_toString val
        ++ " (" ++ to_string pct ++ "%)")%string.

(** *** Options of the pie chart (lines 75-112) *)

(** The callback of [chart.data.labels.map], lines 84-96. *)
Definition legend_item (chart : Chart) (data : list Q) (total : Q)
    (label : string) (i : nat) : result LegendItem :=
  let val := at_or_zero data i in
  pct <- (if truthy total
          then q <- divide (val * 100) total ;; Ok (Str (toFixed1 q))
          else Ok (Num 0)) ;;
  let style := getStyle chart i in
  hid <- (if isNaN val then Ok true else hidden_at (meta_data chart) i) ;;
  Ok {| text := (label ++ " — " ++ to_string pct
                   ++ "% (" ++ Number_toString val ++ ")")%string;
        fillStyle := backgroundColor style;
        strokeStyle := borderColor style;
        lineWidth := borderWidth style;
        hidden := hid;
        index := i |}.

(** [Array.prototype.map] with a callback that may throw: the elements are
    visited in order, from index [i] on, and the first exception ends it. *)
Fixpoint map_from {A B : Type} (f : A -> nat -> result B) (i : nat)
    (l : list A) : result (list B) :=
  match l with
  | [] => Ok []
  | a :: l' =>
      b <- f a i ;;
      bs <- map_from f (S i) l' ;;
      Ok (b :: bs)
  end.

(** [legend.labels.generateLabels], lines 80-97. *)
Definition generateLabels (chart : Chart) : result (list LegendItem) :=
  let data := or_empty (data chart) in
  let total := reduce_add data in
  map_from (legend_item chart data total) 0%nat (labels chart).

(** [tooltip.callbacks.label] of the pie chart, lines 102-108: here the
    data are read without a fallback. *)
Definition pie_tooltip_label (ctx : TooltipItem) : result string :=
  match dataset_data ctx with
  | None => Throw (TypeError "Cannot read properties of undefined (reading 'reduce')")
  | Some data =>
      let total := reduce_add data in
      let val := parsed ctx in
      pct <- (if truthy total
              then q <- divide (val * 100) total ;; Ok (Str (toFixed1 q))
              else Ok (Num 0)) ;;
      Ok (label ctx ++ ": " ++ Number_toString val
            ++ " (" ++ to_string pct ++ "%)")%string
  end.

(** *** The quantities the statements speak of *)

(** The percentage of a slice, the number that every callback computes
    before it formats it: [total ? val * 100 / total : 0]. *)
Definition percentage (val total : Q) : result Q :=
  if truthy total then divide (val * 100) total else Ok 0.

(** The percentage as the tooltips and the legend write it: one fraction
    digit, or the number 0 when the total is zero. *)
Definition pct_text (val total : Q) : string :=
  if truthy total then toFixed1 (val * 100 / total) else Number_toString 0.

(** The text format of the specification,
    "{label} — {pct}% ({value})". *)
Definition spec_text_format (label pct value : string) : string :=
  (label ++ " — " ++ pct ++ "% (" ++ value ++ ")")%string.

(** The format of the tooltips, "{label}: {value} ({pct}%)". *)
Definition tooltip_text_format (label pct value : string) : string :=
  (label ++ ": " ++ value ++ " (" ++ pct ++ "%)")%string.

End Charts.

(** ** The charts that the handler creates *)
Module Dashboard.

(** A global binding of the page, [window.__monthlyChart] and the like: the
    labels and the values of one aggregation. *)
Record Aggregate : Type := mkAggregate {
  labels : list string;
  data : option (list Q)
}.

Record Window : Type := mkWindow {
  __monthlyChart : option Aggregate;
  __typeChart : option Aggregate;
  __donut : option Aggregate;
  __monthlyPaid : option Aggregate;
  ChartDataLabels : bool      (* typeof ChartDataLabels !== 'undefined' *)
}.

Inductive ChartType : Type := bar | pie | doughnut.

Inductive Plugin : Type := ChartDataLabelsPlugin.

(** [options.plugins.datalabels]; a key that the script does not write is
    [None]. *)
Record DataLabels : Type := mkDataLabels {
  display : option bool;
  formatter : option (Q -> Charts.Chart -> Charts.result string);
  anchor : option string;
  align : option string;
  offset : option Q;
  clamp : option bool
}.

(** [options.plugins]. *)
Record Options : Type := mkOptions {
  datalabels : DataLabels;
  generateLabels :            (* legend.labels.generateLabels *)
    option (Charts.Chart -> Charts.result (list Charts.LegendItem));
  tooltip_label :             (* tooltip.callbacks.label *)
    option (Charts.TooltipItem -> Charts.result string)
}.

(** The arguments of one [new Chart(ctx, config)]: the id of the canvas, and
    of the configuration the type, [data.labels], the label and the data of
    the one dataset, the options and the plugins (none when the key is not
    written). *)
Record Config : Type := mkConfig {
  canvas : string;
  type : ChartType;
  chart_labels : list string;
  dataset_label : string;
  dataset_data : option (list Q);
  options : option Options;
  plugins : list Plugin
}.

(** [if (window.x) { new Chart(...) }]. *)
Definition when_defined (g : option Aggregate) (mk : Aggregate -> Config) : list Config :=
  match g with
  | Some a => [mk a]
  | None => []
  end.

(** The charts of the first version, lines 3-16. *)
Definition createCharts_v1 (w : Window) : list Config :=
  when_defined (__monthlyChart w) (fun g =>
    mkConfig "monthlySales" bar (labels g) "Monthly Sales (₹)" (data g) None [])
  ++ when_defined (__typeChart w) (fun g =>
    mkConfig "typeChart" pie (labels g) "Types" (data g) None [])
  ++ when_defined (__donut w) (fun g =>
    mkConfig "donut" doughnut (labels g) "Amount (₹)" (data g) None [])
  ++ when_defined (__monthlyPaid w) (fun g =>
    mkConfig "monthlyPaid" bar (labels g) "Paid (₹)" (data g) None []).

(** [percentOpts], lines 34-61. *)
Definition percentOpts : Options :=
  {| datalabels :=
       {| display := None;
          formatter := Some Charts.formatter;
          anchor := Some "end";
          align := Some "start";
          offset := Some 10%Q;
          clamp := Some true |};
     generateLabels := None;
     tooltip_label := Some Charts.tooltip_label |}.

(** The options of the pie chart, lines 75-112. *)
Definition pieOptions : Options :=
  {| datalabels :=
       {| display := Some false;   (* hide on-slice labels *)
          formatter := None;
          anchor := None;
          align := None;
          offset := None;
          clamp := None |};
     generateLabels := Some Charts.generateLabels;
     tooltip_label := Some Charts.pie_tooltip_label |}.

(** [(typeof ChartDataLabels !== 'undefined') ? [ChartDataLabels] : []]. *)
Definition datalabels_plugin (w : Window) : list Plugin :=
  if ChartDataLabels w then [ChartDataLabelsPlugin] else [].

(** The charts of the second version, lines 63-130. *)
Definition createCharts_v2 (w : Window) : list Config :=
  when_defined (__monthlyChart w) (fun g =>
    mkConfig "monthlySales" bar (labels g) "Monthly Sales (₹)" (data g) None [])
  ++ when_defined (__typeChart w) (fun g =>
    mkConfig "typeChart" pie (labels g) "Types" (data g)
      (Some pieOptions) (datalabels_plugin w))
  ++ when_defined (__donut w) (fun g =>
    mkConfig "donut" doughnut (labels g) "Amount (₹)" (data g)
      (Some percentOpts) (datalabels_plugin w))
  ++ when_defined (__monthlyPaid w) (fun g =>
    mkConfig "monthlyPaid" bar (labels g) "Paid (₹)" (data g) None []).

(** What a chart draws, whatever its options: canvas, type, labels, dataset. *)
Definition drawn (c : Config)
    : string * ChartType * list string * string * option (list Q) :=
  (canvas c, type c, chart_labels c, dataset_label c, dataset_data c).

(** The global bindings by the canvas that draws them. *)
Definition bindings (w : Window) : list (string * option Aggregate) :=
  [ ("monthlySales", __monthlyChart w); ("typeChart", __typeChart w);
    ("donut", __donut w); ("monthlyPaid", __monthlyPaid w) ].

(** The number of bindings that are defined. *)
Definition defined_count (w : Window) : nat :=
  List.length (filter (fun b => match snd b with Some _ => true | None => false end)
                 (bindings w)).

End Dashboard.

(** ** The label on a slice *)


(** ** The status that the user picked last *)

(** The value of the status selector after the events [es], when nothing but
    the user writes it. *)
Definition last_status (es : list event) (s0 : string) : string :=
  fold_left (fun s e => match e with
                        | ChangeStatus v => v
                        | ChangeMode _ => s
                        end) es s0.

(** The exception of [meta.data[i].hidden] for a missing arc. *)
Definition hidden_error : Charts.exn :=
  Charts.TypeError "Cannot read properties of undefined (reading 'hidden')".

(** ** Examples *)

(** The payment-status breakdown of the specification's example: 300 paid,
    50 pending. *)
Definition donut_example : Charts.Chart :=
  Charts.mkChart ["Paid"; "Pending"] (Some [300; 50]%Q)
    [Charts.mkArc false; Charts.mkArc false]
    (fun _ => Charts.mkStyle "#36a2eb" "#fff" 2%Q).

(** A chart with one label for two values, each value with its arc. *)
Definition mismatched_chart : Charts.Chart :=
  Charts.mkChart ["Silk"] (Some [1; 3]%Q)
    [Charts.mkArc false; Charts.mkArc false]
    (fun _ => Charts.mkStyle "#ff6384" "#fff" 2%Q).

(** A dataset whose total is zero. *)
Definition empty_month : list Q := [0; 0]%Q.



(** An order form pre-filled as paid by UPI, and one pre-filled as pending. *)
Definition paid_form : Form := mkForm (mkSelect "Paid" false) (mkSelect "UPI" false).
Definition pending_form : Form := mkForm (mkSelect "Pending" false) (mkSelect "Cash" false).

(** * Properties of the form coupling *)

Section Coupling.

Lemma getForm_putForm (f : Form) (p : Page) : getForm (putForm f p) = Some f.
Proof. destruct f; reflexivity. Qed.

Lemma getForm_page_of (f : Form) : getForm (page_of f) = Some f.
Proof. destruct f; reflexivity. Qed.

Lemma after_change_eq (sync : Form -> Form) (f : Form) (v : string) :
  after_change sync f v = Some (sync (with_status (set_value v (statusSel f)) f)).
Proof.
  unfold after_change, step.
  replace (getForm (addEventListener sync (page_of f))) with (Some f)
    by (destruct f; reflexivity).
  cbn [dispatch fold_left onChange addEventListener page_of app].
  apply getForm_putForm.
Qed.

(** The second version: enabled for 'Paid', disabled and cleared otherwise. *)
Lemma sync_v2_status (f : Form) : statusSel (ScriptV2.sync f) = statusSel f.
Proof. unfold ScriptV2.sync. destruct (_ =? _); reflexivity. Qed.

Lemma sync_v2_paid (f : Form) :
  value (statusSel f) = "Paid" ->
  modeSel (ScriptV2.sync f) = mkSelect (value (modeSel f)) false.
Proof.
  intros H. unfold ScriptV2.sync. rewrite H. reflexivity.
Qed.

Lemma sync_v2_other (f : Form) :
  value (statusSel f) <> "Paid" ->
  modeSel (ScriptV2.sync f) = mkSelect "" true.
Proof.
  intros H. unfold ScriptV2.sync.
  destruct (String.eqb_spec (value (statusSel f)) "Paid"); [contradiction | reflexivity].
Qed.

(** The first version: disabled and set to 'Pending' for 'Pending', enabled
    otherwise, with 'UPI' in the place of a 'Pending' selection. *)
Lemma sync_v1_status (f : Form) : statusSel (ScriptV1.sync f) = statusSel f.
Proof. unfold ScriptV1.sync. destruct (_ =? _); reflexivity. Qed.

Lemma sync_v1_pending (f : Form) :
  value (statusSel f) = "Pending" ->
  modeSel (ScriptV1.sync f) = mkSelect "Pending" true.
Proof.
  intros H. unfold ScriptV1.sync. rewrite H. reflexivity.
Qed.

Lemma sync_v1_other (f : Form) :
  value (statusSel f) <> "Pending" ->
  modeSel (ScriptV1.sync f) =
    mkSelect (if value (modeSel f) =? "Pending" then "UPI" else value (modeSel f)) false.
Proof.
  intros H. unfold ScriptV1.sync.
  destruct (String.eqb_spec (value (statusSel f)) "Pending"); [contradiction |].
  destruct (value (modeSel f) =? "Pending"); reflexivity.
Qed.

(** An invariant of every step is an invariant of every run. *)
Lemma run_invariant (I : Page -> Prop) :
  (forall p e, I p -> I (step p e)) ->
  forall es p, I p -> I (run es p).
Proof.
  intros Hstep es. unfold run.
  induction es as [| e es IH]; intros p Hp; cbn; [exact Hp |].
  apply IH, Hstep, Hp.
Qed.

Lemma sync_v2_coupled (f : Form) :
  (value (statusSel (ScriptV2.sync f)) = "Paid" /\
   disabled (modeSel (ScriptV2.sync f)) = false) \/
  (value (statusSel (ScriptV2.sync f)) <> "Paid" /\
   modeSel (ScriptV2.sync f) = mkSelect "" true).
Proof.
  rewrite sync_v2_status.
  destruct (String.eqb_spec (value (statusSel f)) "Paid") as [E | E].
  - left. split; [exact E |]. rewrite (sync_v2_paid f E). reflexivity.
  - right. split; [exact E |]. apply sync_v2_other, E.
Qed.

Lemma load_v2_coupled (f0 : Form) :
  coupled_v2 (ScriptV2.onDOMContentLoaded (page_of f0)).
Proof.
  unfold ScriptV2.onDOMContentLoaded. rewrite getForm_page_of.
  split; [reflexivity |].
  exists (ScriptV2.sync f0). split; [apply getForm_putForm | apply sync_v2_coupled].
Qed.

Lemma step_v2_coupled (p : Page) (e : event) :
  coupled_v2 p -> coupled_v2 (step p e).
Proof.
  intros [Hl [f [Hf Hc]]]. unfold step. rewrite Hf.
  destruct e as [v | v].
  - rewrite Hl. cbn [dispatch fold_left].
    split; [exact Hl |].
    eexists. split; [apply getForm_putForm | apply sync_v2_coupled].
  - case_eq (disabled (modeSel f)); intros Hd.
    + split; [exact Hl |]. exists f. split; [exact Hf | exact Hc].
    + split; [exact Hl |].
      eexists. split; [apply getForm_putForm |].
      destruct Hc as [[Hs _] | [_ Hm]].
      * left. split; [exact Hs | exact Hd].
      * rewrite Hm in Hd. discriminate Hd.
Qed.

Lemma sync_v1_coupled (f : Form) :
  (value (statusSel (ScriptV1.sync f)) = "Pending" /\
   modeSel (ScriptV1.sync f) = mkSelect "Pending" true) \/
  (value (statusSel (ScriptV1.sync f)) <> "Pending" /\
   disabled (modeSel (ScriptV1.sync f)) = false).
Proof.
  rewrite sync_v1_status.
  destruct (String.eqb_spec (value (statusSel f)) "Pending") as [E | E].
  - left. split; [exact E | apply sync_v1_pending, E].
  - right. split; [exact E |]. rewrite (sync_v1_other f E). reflexivity.
Qed.

Lemma load_v1_coupled (f0 : Form) :
  coupled_v1 (ScriptV1.onDOMContentLoaded (page_of f0)).
Proof.
  unfold ScriptV1.onDOMContentLoaded. rewrite getForm_page_of.
  split; [reflexivity |].
  exists (ScriptV1.sync f0). split; [apply getForm_putForm | apply sync_v1_coupled].
Qed.

Lemma step_v1_coupled (p : Page) (e : event) :
  coupled_v1 p -> coupled_v1 (step p e).
Proof.
  intros [Hl [f [Hf Hc]]]. unfold step. rewrite Hf.
  destruct e as [v | v].
  - rewrite Hl. cbn [dispatch fold_left].
    split; [exact Hl |].
    eexists. split; [apply getForm_putForm | apply sync_v1_coupled].
  - case_eq (disabled (modeSel f)); intros Hd.
    + split; [exact Hl |]. exists f. split; [exact Hf | exact Hc].
    + split; [exact Hl |].
      eexists. split; [apply getForm_putForm |].
      destruct Hc as [[_ Hm] | [Hs _]].
      * rewrite Hm in Hd. discriminate Hd.
      * right. split; [exact Hs | exact Hd].
Qed.

End Coupling.

(** ** The rule applied by a change event *)

(** C1, as stated, fails for the first version of the script: picking status
    'Pending' there leaves the mode selector with the value 'Pending', not
    the empty string, and picking a status that is neither 'Pending' nor
    'Paid' leaves the selector enabled with its selection. *)
Lemma C1_first_version_counterexample :
  after_change ScriptV1.sync paid_form "Pending"
    = Some (mkForm (mkSelect "Pending" false) (mkSelect "Pending" true))
  /\ mkSelect "Pending" true <> mkSelect "" true
  /\ after_change ScriptV1.sync paid_form "Refunded"
    = Some (mkForm (mkSelect "Refunded" false) (mkSelect "UPI" false))
  /\ mkSelect "UPI" false <> mkSelect "" true.
Proof.
  repeat split; try reflexivity; intros H; discriminate H.
Qed.

(** C1 (amended): a change event on the status selector runs [sync] on the
    form with the picked status.  In the second version the mode selector ends
    enabled with its selection kept when the status is 'Paid', and disabled
    with the empty value for every other status.  In the first version it ends
    disabled with the value 'Pending' when the status is 'Pending', and
    enabled for every other status, its selection kept unless it was 'Pending',
    which becomes 'UPI'. *)
Theorem C1_change_event_rule : forall (f : Form) (v : string),
  (exists f', after_change ScriptV2.sync f v = Some f' /\
     value (statusSel f') = v /\
     (v = "Paid" -> modeSel f' = mkSelect (value (modeSel f)) false) /\
     (v <> "Paid" -> modeSel f' = mkSelect "" true)) /\
  (exists f', after_change ScriptV1.sync f v = Some f' /\
     value (statusSel f') = v /\
     (v = "Pending" -> modeSel f' = mkSelect "Pending" true) /\
     (v <> "Pending" ->
      modeSel f' = mkSelect (if value (modeSel f) =? "Pending" then "UPI"
                             else value (modeSel f)) false)).
Proof.
  intros f v. split; eexists; (split; [apply after_change_eq |]).
  - rewrite sync_v2_status. split; [reflexivity |]. split; intros H.
    + rewrite sync_v2_paid by exact H. reflexivity.
    + apply sync_v2_other. exact H.
  - rewrite sync_v1_status. split; [reflexivity |]. split; intros H.
    + apply sync_v1_pending. exact H.
    + rewrite sync_v1_other by exact H. reflexivity.
Qed.

(** ** The invariant of the form *)

(** C7, as stated, fails for the first version of the script: after the load
    and a change to 'Paid', a mode pick and a change back to 'Pending', the
    status is 'Pending' and the mode selector is disabled, but its value is
    'Pending', not empty. *)
Lemma C7_first_version_counterexample :
  getForm (run [ChangeStatus "Paid"; ChangeMode "Cash"; ChangeStatus "Pending"]
             (ScriptV1.onDOMContentLoaded (page_of pending_form)))
    = Some (mkForm (mkSelect "Pending" false) (mkSelect "Pending" true))
  /\ value (mkSelect "Pending" true) <> "".
Proof.
  split; [reflexivity | intros H; discriminate H].
Qed.

(** C7 (amended): in every state reached from the loaded form by status
    changes and mode picks, a status of 'Pending' comes with a disabled mode
    selector, whose value is empty in the second version of the script and
    'Pending' in the first. *)
Theorem C7_pending_invariant : forall (f0 : Form) (es : list event),
  (exists f, getForm (run es (ScriptV2.onDOMContentLoaded (page_of f0))) = Some f /\
     (value (statusSel f) = "Pending" ->
      value (modeSel f) = "" /\ disabled (modeSel f) = true)) /\
  (exists f, getForm (run es (ScriptV1.onDOMContentLoaded (page_of f0))) = Some f /\
     (value (statusSel f) = "Pending" ->
      value (modeSel f) = "Pending" /\ disabled (modeSel f) = true)).
Proof.
  intros f0 es. split.
  - destruct (run_invariant coupled_v2 step_v2_coupled es _ (load_v2_coupled f0))
      as [_ [f [Hf Hc]]].
    exists f. split; [exact Hf |]. intros Hs.
    destruct Hc as [[Hp _] | [_ Hm]].
    + rewrite Hs in Hp. discriminate Hp.
    + rewrite Hm. split; reflexivity.
  - destruct (run_invariant coupled_v1 step_v1_coupled es _ (load_v1_coupled f0))
      as [_ [f [Hf Hc]]].
    exists f. split; [exact Hf |]. intros Hs.
    destruct Hc as [[_ Hm] | [Hn _]].
    + rewrite Hm. split; reflexivity.
    + contradiction.
Qed.

(** ** The state on load *)

(** C8, as stated, fails for the first version of the script: a form
    pre-filled with 'Pending' loads with the mode selector disabled and set to
    'Pending', not cleared, and a form pre-filled with a status that is
    neither 'Pending' nor 'Paid' loads with the mode selector enabled and its
    selection kept. *)
Lemma C8_first_version_counterexample :
  getForm (ScriptV1.onDOMContentLoaded (page_of pending_form))
    = Some (mkForm (mkSelect "Pending" false) (mkSelect "Pending" true))
  /\ mkSelect "Pending" true <> mkSelect "" true
  /\ getForm (ScriptV1.onDOMContentLoaded
                (page_of (mkForm (mkSelect "Refunded" false) (mkSelect "Cash" false))))
    = Some (mkForm (mkSelect "Refunded" false) (mkSelect "Cash" false))
  /\ mkSelect "Cash" false <> mkSelect "" true.
Proof.
  repeat split; try reflexivity; intros H; discriminate H.
Qed.

(** C8 (amended): on load, before any event, each version of the handler
    registers its [sync] as the one listener and runs it once on the
    pre-filled form, leaving the status selector as it was.  In the second
    version the mode selector starts enabled with its selection kept when the
    pre-filled status is 'Paid', and disabled with the empty value for every
    other status.  In the first version it starts disabled with the value
    'Pending' when the pre-filled status is 'Pending', and enabled for every
    other status, its selection kept unless it was 'Pending', which becomes
    'UPI'.  In both, a form pre-filled with 'Paid' starts with the mode
    selector enabled. *)
Theorem C8_initial_state : forall f0 : Form,
  (exists f,
     getForm (ScriptV2.onDOMContentLoaded (page_of f0)) = Some f /\
     f = ScriptV2.sync f0 /\
     onChange (ScriptV2.onDOMContentLoaded (page_of f0)) = [ScriptV2.sync] /\
     statusSel f = statusSel f0 /\
     (value (statusSel f0) = "Paid" ->
      modeSel f = mkSelect (value (modeSel f0)) false) /\
     (value (statusSel f0) <> "Paid" -> modeSel f = mkSelect "" true)) /\
  (exists f,
     getForm (ScriptV1.onDOMContentLoaded (page_of f0)) = Some f /\
     f = ScriptV1.sync f0 /\
     onChange (ScriptV1.onDOMContentLoaded (page_of f0)) = [ScriptV1.sync] /\
     statusSel f = statusSel f0 /\
     (value (statusSel f0) = "Pending" -> modeSel f = mkSelect "Pending" true) /\
     (value (statusSel f0) <> "Pending" ->
      modeSel f = mkSelect (if value (modeSel f0) =? "Pending" then "UPI"
                            else value (modeSel f0)) false) /\
     (value (statusSel f0) = "Paid" -> disabled (modeSel f) = false)).
Proof.
  intros f0.
  unfold ScriptV2.onDOMContentLoaded, ScriptV1.onDOMContentLoaded.
  rewrite getForm_page_of. split.
  - exists (ScriptV2.sync f0).
    split; [apply getForm_putForm |]. split; [reflexivity |].
    split; [reflexivity |]. split; [apply sync_v2_status |].
    split; [apply sync_v2_paid | apply sync_v2_other].
  - exists (ScriptV1.sync f0).
    split; [apply getForm_putForm |]. split; [reflexivity |].
    split; [reflexivity |]. split; [apply sync_v1_status |].
    split; [apply sync_v1_pending |]. split; [apply sync_v1_other |].
    intros H. rewrite sync_v1_other; [reflexivity |].
    rewrite H. intros E. discriminate E.
Qed.

(** ** The two versions compared *)

(** C9, as stated, fails: on a form whose status is 'Pending' the first
    version leaves the value 'Pending' in the mode selector and the second the
    empty value; on a status that is neither 'Paid' nor 'Pending' the first
    enables the selector and the second disables it. *)
Lemma C9_versions_differ_counterexample :
  modeSel (ScriptV1.sync pending_form) = mkSelect "Pending" true
  /\ modeSel (ScriptV2.sync pending_form) = mkSelect "" true
  /\ modeSel (ScriptV1.sync (mkForm (mkSelect "Refunded" false) (mkSelect "Cash" false)))
     = mkSelect "Cash" false
  /\ modeSel (ScriptV2.sync (mkForm (mkSelect "Refunded" false) (mkSelect "Cash" false)))
     = mkSelect "" true
  /\ modeSel (ScriptV1.sync pending_form) <> modeSel (ScriptV2.sync pending_form).
Proof.
  repeat split; intros H; discriminate H.
Qed.

(** C9 (amended): the two versions of [sync] leave the mode selector with the
    same value and the same disabled flag exactly when the status is 'Paid'
    and the prior mode value is not 'Pending'. *)
Theorem C9_versions_agree_iff : forall f : Form,
  modeSel (ScriptV1.sync f) = modeSel (ScriptV2.sync f) <->
  (value (statusSel f) = "Paid" /\ value (modeSel f) <> "Pending").
Proof.
  intros [[sv sd] [mv md]]. unfold ScriptV1.sync, ScriptV2.sync. cbn.
  destruct (String.eqb_spec sv "Pending") as [Ep | Ep];
    destruct (String.eqb_spec sv "Paid") as [Eq | Eq]; cbn.
  - subst sv. discriminate Eq.
  - split; [intros H; discriminate H | intros [H _]; contradiction].
  - destruct (String.eqb_spec mv "Pending") as [Em | Em]; cbn.
    + subst mv. split; [intros H; discriminate H | intros [_ H]; contradiction].
    + split; [intros _; split; assumption | reflexivity].
  - destruct (mv =? "Pending"); cbn;
      (split; [intros H; discriminate H | intros [H _]; contradiction]).
Qed.

(** ** Idempotence *)

(** C10: in both versions, running [sync] twice leaves the form, and so the
    value and the disabled flag of the mode selector, as running it once. *)
Theorem C10_sync_idempotent : forall f : Form,
  ScriptV2.sync (ScriptV2.sync f) = ScriptV2.sync f /\
  ScriptV1.sync (ScriptV1.sync f) = ScriptV1.sync f.
Proof.
  intros [[sv sd] [mv md]]. unfold ScriptV1.sync, ScriptV2.sync. cbn. split.
  - destruct (sv =? "Paid") eqn:E; cbn; rewrite E; reflexivity.
  - destruct (sv =? "Pending") eqn:E; cbn; rewrite E; cbn; [reflexivity |].
    destruct (mv =? "Pending") eqn:Em; cbn; [reflexivity |].
    rewrite Em. reflexivity.
Qed.

(** * Properties of the percentages *)

Module ChartFacts.
Import Charts.
Local Open Scope Q_scope.

(** *** The guard on the total *)

Lemma truthy_zero (t : Q) : t == 0 -> truthy t = false.
Proof.
  intros H. unfold truthy. apply negb_false_iff, Qeq_bool_iff, H.
Qed.

Lemma truthy_nonzero (t : Q) : ~ t == 0 -> truthy t = true.
Proof.
  intros H. unfold truthy. apply negb_true_iff.
  destruct (Qeq_bool t 0) eqn:E; [| reflexivity].
  exfalso. apply H, Qeq_bool_iff, E.
Qed.

Lemma divide_nonzero (a t : Q) : truthy t = true -> divide a t = Ok (a / t).
Proof.
  unfold truthy, divide. intros H. apply negb_true_iff in H. rewrite H. reflexivity.
Qed.

(** Whatever the total, the percentage has a value: the division is reached
    with a non-zero total only. *)
Lemma percentage_value (val t : Q) :
  percentage val t = Ok (if truthy t then val * 100 / t else 0).
Proof.
  unfold percentage. destruct (truthy t) eqn:E; [| reflexivity].
  apply divide_nonzero, E.
Qed.

Lemma pct_jsval (val t : Q) :
  (if truthy t then q <- divide (val * 100) t ;; Ok (Str (toFixed1 q)) else Ok (Num 0))
  = Ok (if truthy t then Str (toFixed1 (val * 100 / t)) else Num 0).
Proof.
  destruct (truthy t) eqn:E; [| reflexivity].
  rewrite (divide_nonzero _ _ E). reflexivity.
Qed.

Lemma to_string_pct (val t : Q) :
  to_string (if truthy t then Str (toFixed1 (val * 100 / t)) else Num 0)
  = pct_text val t.
Proof. unfold pct_text. destruct (truthy t); reflexivity. Qed.

Lemma pct_text_zero (val t : Q) : t == 0 -> pct_text val t = "0"%string.
Proof. intros H. unfold pct_text. rewrite (truthy_zero t H). reflexivity. Qed.

(** *** The callbacks in closed form *)

Lemma formatter_eq (value : Q) (ctx : Chart) :
  formatter value ctx =
    let total := reduce_add (or_empty (data ctx)) in
    let pct := if truthy total then value * 100 / total else 0 in
    Ok (if Qle_bool 3 pct then toFixed1 pct ++ "%" else "")%string.
Proof.
  unfold formatter. cbv zeta.
  fold (percentage value (reduce_add (or_empty (data ctx)))).
  rewrite percentage_value. reflexivity.
Qed.

Lemma tooltip_label_eq (context : TooltipItem) :
  tooltip_label context =
    Ok (tooltip_text_format (label context)
          (pct_text (parsed context) (reduce_add (or_empty (dataset_data context))))
          (Number_toString (parsed context))).
Proof.
  unfold tooltip_label. cbv zeta. rewrite pct_jsval. cbn [bind].
  rewrite to_string_pct. reflexivity.
Qed.

Lemma pie_tooltip_label_eq (ctx : TooltipItem) (values : list Q) :
  dataset_data ctx = Some values ->
  pie_tooltip_label ctx =
    Ok (tooltip_text_format (label ctx)
          (pct_text (parsed ctx) (reduce_add values))
          (Number_toString (parsed ctx))).
Proof.
  intros H. unfold pie_tooltip_label. rewrite H. cbv zeta.
  rewrite pct_jsval. cbn [bind]. rewrite to_string_pct. reflexivity.
Qed.

Lemma legend_item_eq (chart : Chart) (values : list Q) (total : Q)
    (lbl : string) (i : nat) :
  legend_item chart values total lbl i =
    hid <- hidden_at (meta_data chart) i ;;
    Ok {| text := spec_text_format lbl (pct_text (at_or_zero values i) total)
                    (Number_toString (at_or_zero values i));
          fillStyle := backgroundColor (getStyle chart i);
          strokeStyle := borderColor (getStyle chart i);
          lineWidth := borderWidth (getStyle chart i);
          hidden := hid;
          index := i |}.
Proof.
  unfold legend_item. cbv zeta. rewrite pct_jsval. cbn [bind isNaN].
  rewrite to_string_pct. reflexivity.
Qed.

(** *** The legend *)

Lemma map_from_ok {A B : Type} (f : A -> nat -> result B) (l : list A) :
  forall (i : nat) (bs : list B),
    map_from f i l = Ok bs ->
    List.length bs = List.length l /\
    forall k a, nth_error l k = Some a ->
      exists b, nth_error bs k = Some b /\ f a (i + k)%nat = Ok b.
Proof.
  induction l as [| a l IH]; intros i bs H; cbn in H.
  - inversion H; subst. split; [reflexivity |].
    intros [| k] x Hx; discriminate Hx.
  - destruct (f a i) as [b | e] eqn:Hb; cbn in H; [| discriminate H].
    destruct (map_from f (S i) l) as [bs' | e] eqn:Hbs; cbn in H; [| discriminate H].
    inversion H; subst bs. destruct (IH _ _ Hbs) as [Hlen Hnth].
    split; [cbn; rewrite Hlen; reflexivity |].
    intros [| k] x Hx; cbn in Hx.
    + inversion Hx; subst x. exists b. rewrite Nat.add_0_r. split; [reflexivity | exact Hb].
    + destruct (Hnth k x Hx) as [y [Hy Hf]]. exists y.
      rewrite Nat.add_succ_r. split; [exact Hy | exact Hf].
Qed.

Lemma map_from_returns {A B : Type} (f : A -> nat -> result B) (l : list A) :
  forall i : nat,
    (forall k a, nth_error l k = Some a -> exists b, f a (i + k)%nat = Ok b) ->
    exists bs, map_from f i l = Ok bs.
Proof.
  induction l as [| a l IH]; intros i H; cbn.
  - exists []. reflexivity.
  - destruct (H 0%nat a eq_refl) as [b Hb]. rewrite Nat.add_0_r in Hb. rewrite Hb. cbn.
    destruct (IH (S i)) as [bs Hbs].
    + intros k x Hx. destruct (H (S k) x Hx) as [y Hy].
      exists y. rewrite Nat.add_succ_r in Hy. exact Hy.
    + rewrite Hbs. exists (b :: bs). reflexivity.
Qed.

Lemma map_from_throws {A B : Type} (f : A -> nat -> result B) (l : list A) :
  forall (i : nat) (e : exn),
    map_from f i l = Throw e ->
    exists k a, nth_error l k = Some a /\ f a (i + k)%nat = Throw e.
Proof.
  induction l as [| a l IH]; intros i e H; cbn in H; [discriminate H |].
  destruct (f a i) as [b | e'] eqn:Hb; cbn in H.
  - destruct (map_from f (S i) l) as [bs | e''] eqn:Hbs; cbn in H; [discriminate H |].
    inversion H; subst e''. destruct (IH _ _ Hbs) as [k [x [Hx Hf]]].
    exists (S k), x. rewrite Nat.add_succ_r. split; assumption.
  - inversion H; subst e'. exists 0%nat, a. rewrite Nat.add_0_r. split; [reflexivity | exact Hb].
Qed.

Lemma hidden_at_some (meta : list ArcElement) (i : nat) :
  (i < List.length meta)%nat -> exists h, hidden_at meta i = Ok h.
Proof.
  intros H. unfold hidden_at.
  destruct (nth_error meta i) as [e |] eqn:E; [eexists; reflexivity |].
  apply nth_error_None in E. lia.
Qed.

Lemma legend_item_text (chart : Chart) (values : list Q) (total : Q)
    (lbl : string) (i : nat) (item : LegendItem) :
  legend_item chart values total lbl i = Ok item ->
  text item = spec_text_format lbl (pct_text (at_or_zero values i) total)
                (Number_toString (at_or_zero values i))
  /\ index item = i.
Proof.
  rewrite legend_item_eq.
  destruct (hidden_at (meta_data chart) i) as [h | e]; cbn; intros H; [| discriminate H].
  inversion H; subst item. split; reflexivity.
Qed.

Lemma legend_item_no_division (chart : Chart) (values : list Q) (total : Q)
    (lbl : string) (i : nat) :
  legend_item chart values total lbl i <> Throw DivisionByZero.
Proof.
  rewrite legend_item_eq. unfold hidden_at.
  destruct (nth_error (meta_data chart) i); cbn; intros H; discriminate H.
Qed.

(** What [generateLabels] returns, when it returns: an entry for each label,
    in order, in the format of the legend. *)
Lemma generateLabels_items (chart : Chart) (items : list LegendItem) :
  generateLabels chart = Ok items ->
  List.length items = List.length (labels chart) /\
  forall i lbl, nth_error (labels chart) i = Some lbl ->
    exists item, nth_error items i = Some item /\
      index item = i /\
      text item =
        spec_text_format lbl
          (pct_text (at_or_zero (or_empty (data chart)) i)
             (reduce_add (or_empty (data chart))))
          (Number_toString (at_or_zero (or_empty (data chart)) i)).
Proof.
  unfold generateLabels. cbv zeta. intros H.
  destruct (map_from_ok _ _ _ _ H) as [Hlen Hnth].
  split; [exact Hlen |].
  intros i lbl Hl. destruct (Hnth i lbl Hl) as [item [Hi Hf]].
  exists item. cbn in Hf. destruct (legend_item_text _ _ _ _ _ _ Hf) as [Ht Hx].
  split; [exact Hi |]. split; assumption.
Qed.

(** [generateLabels] returns as soon as the meta has an arc for each label. *)
Lemma generateLabels_returns (chart : Chart) :
  (List.length (labels chart) <= List.length (meta_data chart))%nat ->
  exists items, generateLabels chart = Ok items.
Proof.
  intros H. unfold generateLabels. cbv zeta.
  apply map_from_returns. intros k lbl Hk. cbn.
  rewrite legend_item_eq.
  destruct (hidden_at_some (meta_data chart) k) as [h Hh].
  - assert (k < List.length (labels chart))%nat
      by (apply nth_error_Some; rewrite Hk; discriminate).
    lia.
  - rewrite Hh. cbn. eexists. reflexivity.
Qed.

Lemma generateLabels_no_division (chart : Chart) :
  generateLabels chart <> Throw DivisionByZero.
Proof.
  unfold generateLabels. cbv zeta. intros H.
  destruct (map_from_throws _ _ _ _ H) as [k [lbl [_ Hf]]].
  exact (legend_item_no_division _ _ _ _ _ Hf).
Qed.

Lemma append_nonempty (s t : string) : t <> ""%string -> (s ++ t)%string <> ""%string.
Proof.
  intros Ht. destruct s as [| c s]; cbn; [exact Ht | intros H; discriminate H].
Qed.

End ChartFacts.

Import Charts ChartFacts.
Local Open Scope Q_scope.

(** ** The example of the specification *)

Example formatter_example :
  formatter 300 donut_example = Ok "85.7%"%string /\
  formatter 50 donut_example = Ok "14.3%"%string /\
  formatter 10 donut_example = Ok ""%string.
Proof. repeat split. Qed.

Example generateLabels_example :
  generateLabels donut_example =
    Ok [ mkLegendItem "Paid — 85.7% (300)" "#36a2eb" "#fff" 2 false 0;
         mkLegendItem "Pending — 14.3% (50)" "#36a2eb" "#fff" 2 false 1 ].
Proof. reflexivity. Qed.

(** A label without an arc in the dataset meta ends [generateLabels]. *)
Example generateLabels_missing_arc :
  generateLabels (mkChart ["Silk"; "Cotton"] (Some [4]) [mkArc false]
                    (fun _ => mkStyle "#ff6384" "#fff" 2))
  = Throw (TypeError "Cannot read properties of undefined (reading 'hidden')").
Proof. reflexivity. Qed.

(** ** A total of zero *)

(** C2: when the values sum to zero, every percentage is 0 and no callback
    divides: the formatter returns the empty label of a 0% slice, both tooltips
    and the legend write 0%, and [generateLabels] never fails on a division. *)
Theorem C2_zero_total : forall values : list Q,
  reduce_add values == 0 ->
  (forall val, percentage val (reduce_add values) = Ok 0) /\
  (forall value lbls meta style,
     formatter value (mkChart lbls (Some values) meta style) = Ok ""%string) /\
  (forall lbl val,
     tooltip_label (mkTooltipItem lbl val (Some values))
     = Ok (tooltip_text_format lbl "0" (Number_toString val))) /\
  (forall lbl val,
     pie_tooltip_label (mkTooltipItem lbl val (Some values))
     = Ok (tooltip_text_format lbl "0" (Number_toString val))) /\
  (forall lbls meta style,
     generateLabels (mkChart lbls (Some values) meta style) <> Throw DivisionByZero /\
     ((List.length lbls <= List.length meta)%nat ->
      exists items, generateLabels (mkChart lbls (Some values) meta style) = Ok items) /\
     (forall items,
        generateLabels (mkChart lbls (Some values) meta style) = Ok items ->
        forall i lbl, nth_error lbls i = Some lbl ->
          exists item, nth_error items i = Some item /\
            text item = spec_text_format lbl "0" (Number_toString (at_or_zero values i)))).
Proof.
  intros values H0. repeat apply conj.
  - intros val. rewrite percentage_value, (truthy_zero _ H0). reflexivity.
  - intros value lbls meta style. rewrite formatter_eq. cbn [data or_empty].
    cbv zeta. rewrite (truthy_zero _ H0). reflexivity.
  - intros lbl val. rewrite tooltip_label_eq. cbn [dataset_data or_empty label parsed].
    rewrite (pct_text_zero _ _ H0). reflexivity.
  - intros lbl val.
    rewrite (pie_tooltip_label_eq (mkTooltipItem lbl val (Some values)) values eq_refl).
    cbn [label parsed]. rewrite (pct_text_zero _ _ H0). reflexivity.
  - intros lbls meta style. repeat apply conj.
    + apply generateLabels_no_division.
    + intros Hlen. apply generateLabels_returns. exact Hlen.
    + intros items Hg i lbl Hl.
      destruct (generateLabels_items _ _ Hg) as [_ Hnth].
      destruct (Hnth i lbl Hl) as [item [Hi [_ Ht]]].
      exists item. split; [exact Hi |].
      cbn [data or_empty] in Ht. rewrite (pct_text_zero _ _ H0) in Ht. exact Ht.
Qed.

(** C2 at the dataset [0, 0]. *)
Lemma C2_zero_total_witness :
  reduce_add empty_month == 0 /\
  percentage 0 (reduce_add empty_month) = Ok 0 /\
  tooltip_label (mkTooltipItem "May" 0 (Some empty_month))
  = Ok (tooltip_text_format "May" "0" (Number_toString 0)).
Proof.
  assert (H : reduce_add empty_month == 0) by reflexivity.
  split; [exact H |].
  destruct (C2_zero_total empty_month H) as [Hp [_ [Ht _]]].
  split; [apply Hp | apply Ht].
Defined.

(** ** The threshold of the on-chart label *)




(** ** The text of the tooltips and of the legend *)

(** C5, as stated, fails for the tooltips: for the slice 'Paid' of the
    example, both tooltip callbacks write "Paid: 300 (85.7%)", and the format
    of the claim gives "Paid — 85.7% (300)". *)
Lemma C5_tooltip_format_counterexample :
  tooltip_label (mkTooltipItem "Paid" 300 (Some [300; 50]))
    = Ok "Paid: 300 (85.7%)"%string
  /\ pie_tooltip_label (mkTooltipItem "Paid" 300 (Some [300; 50]))
    = Ok "Paid: 300 (85.7%)"%string
  /\ spec_text_format "Paid" (pct_text 300 (reduce_add [300; 50])) (Number_toString 300)
    = "Paid — 85.7% (300)"%string
  /\ "Paid: 300 (85.7%)"%string <> "Paid — 85.7% (300)"%string.
Proof.
  repeat split. intros H. discriminate H.
Qed.

(** C5 (amended): every entry that [generateLabels] returns has the text
    "{label} — {pct}% ({value})"; both tooltip callbacks write
    "{label}: {value} ({pct}%)".  In each, pct is the percentage of the slice
    with one fraction digit, or 0 when the total is zero, and value is the
    value of the slice. *)
Theorem C5_text_formats :
  (forall (chart : Chart) (items : list LegendItem),
     generateLabels chart = Ok items ->
     forall i lbl, nth_error (labels chart) i = Some lbl ->
       exists item, nth_error items i = Some item /\
         text item =
           spec_text_format lbl
             (pct_text (at_or_zero (or_empty (data chart)) i)
                (reduce_add (or_empty (data chart))))
             (Number_toString (at_or_zero (or_empty (data chart)) i))) /\
  (forall context : TooltipItem,
     tooltip_label context =
       Ok (tooltip_text_format (label context)
             (pct_text (parsed context) (reduce_add (or_empty (dataset_data context))))
             (Number_toString (parsed context)))) /\
  (forall (ctx : TooltipItem) (values : list Q),
     dataset_data ctx = Some values ->
     pie_tooltip_label ctx =
       Ok (tooltip_text_format (label ctx)
             (pct_text (parsed ctx) (reduce_add values))
             (Number_toString (parsed ctx)))).
Proof.
  repeat apply conj.
  - intros chart items Hg i lbl Hl.
    destruct (generateLabels_items _ _ Hg) as [_ Hnth].
    destruct (Hnth i lbl Hl) as [item [Hi [_ Ht]]].
    exists item. split; assumption.
  - apply tooltip_label_eq.
  - apply pie_tooltip_label_eq.
Qed.

(** ** Labels and values of different lengths *)

(** C6, as stated, fails: with one label for two values no callback reports
    the mismatch; [generateLabels] returns the entry of the label, and the
    formatter and the tooltip serve the value that has no label. *)
Lemma C6_mismatch_counterexample :
  List.length (labels mismatched_chart) = 1%nat
  /\ List.length (or_empty (data mismatched_chart)) = 2%nat
  /\ generateLabels mismatched_chart
     = Ok [ mkLegendItem "Silk — 25.0% (1)" "#ff6384" "#fff" 2 false 0 ]
  /\ formatter 3 mismatched_chart = Ok "75.0%"%string
  /\ tooltip_label (mkTooltipItem "" 3 (data mismatched_chart))
     = Ok ": 3 (75.0%)"%string.
Proof.
  repeat split.
Qed.

(** C6 (amended): the callbacks do not compare the number of labels with the
    number of values.  Whenever the dataset meta has an arc for each label,
    [generateLabels] returns one entry for each label, whatever the number of
    values: a value without a label is left out of the legend and counts in
    the total, a label without a value is written with the value 0.  The
    formatter and the tooltip return a text for every value. *)
Theorem C6_no_length_check : forall chart : Chart,
  (List.length (labels chart) <= List.length (meta_data chart))%nat ->
  (exists items : list LegendItem,
     generateLabels chart = Ok items /\
     List.length items = List.length (labels chart) /\
     forall i lbl, nth_error (labels chart) i = Some lbl ->
       exists item, nth_error items i = Some item /\
         index item = i /\
         text item =
           spec_text_format lbl
             (pct_text (at_or_zero (or_empty (data chart)) i)
                (reduce_add (or_empty (data chart))))
             (Number_toString (at_or_zero (or_empty (data chart)) i))) /\
  (forall value : Q, exists s, formatter value chart = Ok s) /\
  (forall lbl value, exists s,
     tooltip_label (mkTooltipItem lbl value (data chart)) = Ok s).
Proof.
  intros chart Hlen. repeat apply conj.
  - destruct (generateLabels_returns chart Hlen) as [items Hg].
    exists items. split; [exact Hg |]. apply generateLabels_items, Hg.
  - intros value. rewrite formatter_eq. eexists. reflexivity.
  - intros lbl value. rewrite tooltip_label_eq. eexists. reflexivity.
Qed.

(** C6 at one label for two values. *)
Lemma C6_no_length_check_witness :
  (List.length (labels mismatched_chart) <= List.length (meta_data mismatched_chart))%nat /\
  List.length (labels mismatched_chart) <> List.length (or_empty (data mismatched_chart)) /\
  exists items : list LegendItem,
    generateLabels mismatched_chart = Ok items /\
    List.length items = List.length (labels mismatched_chart).
Proof.
  assert (H : (List.length (labels mismatched_chart)
               <= List.length (meta_data mismatched_chart))%nat) by (cbn; lia).
  split; [exact H |]. split; [cbn; lia |].
  destruct (C6_no_length_check mismatched_chart H) as [[items [Hg [Hl _]]] _].
  exists items. split; assumption.
Defined.


(** * Further properties of the form coupling *)

Module CouplingMore.

Local Open Scope string_scope.

Lemma run_app (es es' : list event) (p : Page) :
  run (es ++ es') p = run es' (run es p).
Proof. unfold run. apply fold_left_app. Qed.

(** A status change on a page with the single listener [sync]. *)
Lemma step_change_status (sync : Form -> Form) (p : Page) (f : Form) (v : string) :
  onChange p = [sync] ->
  getForm p = Some f ->
  getForm (step p (ChangeStatus v))
    = Some (sync (with_status (set_value v (statusSel f)) f))
  /\ onChange (step p (ChangeStatus v)) = [sync].
Proof.
  intros Hl Hf. unfold step. rewrite Hf, Hl. cbn [dispatch fold_left].
  split; [apply getForm_putForm | exact Hl].
Qed.

(** A mode pick, on any page with both selectors. *)
Lemma step_change_mode (p : Page) (f : Form) (v : string) :
  getForm p = Some f ->
  (disabled (modeSel f) = true -> step p (ChangeMode v) = p) /\
  (disabled (modeSel f) = false ->
   getForm (step p (ChangeMode v)) = Some (with_mode (set_value v (modeSel f)) f)
   /\ onChange (step p (ChangeMode v)) = onChange p).
Proof.
  intros Hf. unfold step. rewrite Hf. split; intros Hd; rewrite Hd.
  - reflexivity.
  - split; [apply getForm_putForm | reflexivity].
Qed.

(** The status selector along a run, for a listener that leaves it alone. *)
Lemma run_status (sync : Form -> Form) :
  (forall f, statusSel (sync f) = statusSel f) ->
  forall (es : list event) (p : Page) (f : Form),
    onChange p = [sync] ->
    getForm p = Some f ->
    exists f', getForm (run es p) = Some f' /\
      value (statusSel f') = last_status es (value (statusSel f)) /\
      disabled (statusSel f') = disabled (statusSel f).
Proof.
  intros Hs es. induction es as [| e es IH]; intros p f Hl Hf.
  - exists f. repeat split. exact Hf.
  - unfold run, last_status. cbn [fold_left].
    fold (run es (step p e)).
    destruct e as [v | v].
    + destruct (step_change_status sync p f v Hl Hf) as [Hf' Hl'].
      destruct (IH _ _ Hl' Hf') as [f' [Hg [Hv Hd]]].
      exists f'. split; [exact Hg |].
      rewrite Hs in Hv, Hd. cbn in Hv, Hd. split; assumption.
    + destruct (step_change_mode p f v Hf) as [Hrefused Haccepted].
      case_eq (disabled (modeSel f)); intros Hd.
      * rewrite (Hrefused Hd). apply IH; assumption.
      * destruct (Haccepted Hd) as [Hf' Hl'].
        rewrite Hl in Hl'.
        destruct (IH _ _ Hl' Hf') as [f' [Hg [Hv Hd']]].
        exists f'. split; [exact Hg |]. cbn in Hv, Hd'. split; assumption.
Qed.

(** X1: the script never writes the status selector: after the load and any
    events, in both versions, its value is the one the user picked last (the
    pre-filled one when no status was picked) and its disabled flag is the
    pre-filled one. *)
Theorem status_is_last_pick : forall (f0 : Form) (es : list event),
  (exists f, getForm (run es (ScriptV2.onDOMContentLoaded (page_of f0))) = Some f /\
     value (statusSel f) = last_status es (value (statusSel f0)) /\
     disabled (statusSel f) = disabled (statusSel f0)) /\
  (exists f, getForm (run es (ScriptV1.onDOMContentLoaded (page_of f0))) = Some f /\
     value (statusSel f) = last_status es (value (statusSel f0)) /\
     disabled (statusSel f) = disabled (statusSel f0)).
Proof.
  intros f0 es. split.
  - destruct (load_v2_coupled f0) as [Hl _].
    assert (Hf : getForm (ScriptV2.onDOMContentLoaded (page_of f0)) = Some (ScriptV2.sync f0)).
    { unfold ScriptV2.onDOMContentLoaded. rewrite getForm_page_of. apply getForm_putForm. }
    destruct (run_status ScriptV2.sync sync_v2_status es _ _ Hl Hf) as [f [Hg [Hv Hd]]].
    exists f. rewrite sync_v2_status in Hv, Hd. repeat split; assumption.
  - destruct (load_v1_coupled f0) as [Hl _].
    assert (Hf : getForm (ScriptV1.onDOMContentLoaded (page_of f0)) = Some (ScriptV1.sync f0)).
    { unfold ScriptV1.onDOMContentLoaded. rewrite getForm_page_of. apply getForm_putForm. }
    destruct (run_status ScriptV1.sync sync_v1_status es _ _ Hl Hf) as [f [Hg [Hv Hd]]].
    exists f. rewrite sync_v1_status in Hv, Hd. repeat split; assumption.
Qed.

Lemma run_v2_coupled (f0 : Form) (es : list event) :
  coupled_v2 (run es (ScriptV2.onDOMContentLoaded (page_of f0))).
Proof. apply (run_invariant coupled_v2 step_v2_coupled), load_v2_coupled. Qed.

Lemma run_v1_coupled (f0 : Form) (es : list event) :
  coupled_v1 (run es (ScriptV1.onDOMContentLoaded (page_of f0))).
Proof. apply (run_invariant coupled_v1 step_v1_coupled), load_v1_coupled. Qed.

(** X2: in the second version, after the load and any events, [sync] is still
    the one listener, the mode selector is enabled exactly when the status is
    'Paid', and a disabled mode selector has the empty value. *)
Theorem v2_enabled_iff_paid : forall (f0 : Form) (es : list event),
  onChange (run es (ScriptV2.onDOMContentLoaded (page_of f0))) = [ScriptV2.sync] /\
  exists f, getForm (run es (ScriptV2.onDOMContentLoaded (page_of f0))) = Some f /\
    (disabled (modeSel f) = false <-> value (statusSel f) = "Paid") /\
    (disabled (modeSel f) = true -> value (modeSel f) = "").
Proof.
  intros f0 es. destruct (run_v2_coupled f0 es) as [Hl [f [Hf Hc]]].
  split; [exact Hl |]. exists f. split; [exact Hf |].
  destruct Hc as [[Hs Hd] | [Hs Hm]].
  - rewrite Hd. split; [split; intros _; [exact Hs | reflexivity] |].
    intros H. discriminate H.
  - rewrite Hm. cbn. split; [| reflexivity].
    split; [intros H; discriminate H | intros H; contradiction].
Qed.

(** X3: in the first version, after the load and any events, [sync] is still
    the one listener, the mode selector is disabled exactly when the status is
    'Pending', and a disabled mode selector has the value 'Pending'. *)
Theorem v1_disabled_iff_pending : forall (f0 : Form) (es : list event),
  onChange (run es (ScriptV1.onDOMContentLoaded (page_of f0))) = [ScriptV1.sync] /\
  exists f, getForm (run es (ScriptV1.onDOMContentLoaded (page_of f0))) = Some f /\
    (disabled (modeSel f) = true <-> value (statusSel f) = "Pending") /\
    (disabled (modeSel f) = true -> value (modeSel f) = "Pending").
Proof.
  intros f0 es. destruct (run_v1_coupled f0 es) as [Hl [f [Hf Hc]]].
  split; [exact Hl |]. exists f. split; [exact Hf |].
  destruct Hc as [[Hs Hm] | [Hs Hd]].
  - rewrite Hm. cbn. split; [| reflexivity].
    split; intros _; [exact Hs | reflexivity].
  - rewrite Hd. split; [| intros H; discriminate H].
    split; [intros H; discriminate H | intros H; contradiction].
Qed.

(** X4: in the second version a selection does not survive a detour of the
    status: whatever happened before, picking a status other than 'Paid' and
    then 'Paid' leaves the mode selector enabled with the empty value. *)
Theorem v2_detour_clears_mode : forall (f0 : Form) (es : list event) (s : string),
  s <> "Paid" ->
  exists f,
    getForm (run (es ++ [ChangeStatus s; ChangeStatus "Paid"])
               (ScriptV2.onDOMContentLoaded (page_of f0))) = Some f /\
    value (statusSel f) = "Paid" /\
    modeSel f = mkSelect "" false.
Proof.
  intros f0 es s Hs. rewrite run_app.
  destruct (run_v2_coupled f0 es) as [Hl [f1 [Hf1 _]]].
  set (p1 := run es (ScriptV2.onDOMContentLoaded (page_of f0))) in *.
  unfold run. cbn [fold_left].
  destruct (step_change_status _ p1 f1 s Hl Hf1) as [Hf2 Hl2].
  destruct (step_change_status _ _ _ "Paid" Hl2 Hf2) as [Hf3 _].
  eexists. split; [exact Hf3 |].
  rewrite sync_v2_status. split; [reflexivity |].
  rewrite sync_v2_paid by reflexivity.
  cbn [modeSel with_status]. rewrite sync_v2_other; [reflexivity |].
  cbn. exact Hs.
Qed.

(** X4 at the paid form, with a detour over 'Pending'. *)
Lemma v2_detour_clears_mode_witness :
  "Pending" <> "Paid" /\
  exists f,
    getForm (run ([ChangeMode "Card"] ++ [ChangeStatus "Pending"; ChangeStatus "Paid"])
               (ScriptV2.onDOMContentLoaded (page_of paid_form))) = Some f /\
    value (statusSel f) = "Paid" /\
    modeSel f = mkSelect "" false.
Proof.
  assert (H : "Pending" <> "Paid") by (intros E; discriminate E).
  split; [exact H |].
  exact (v2_detour_clears_mode paid_form [ChangeMode "Card"] "Pending" H).
Defined.

(** X5: in the first version a selection does not survive a detour over
    'Pending': whatever happened before, picking 'Pending' and then another
    status leaves the mode selector enabled with the value 'UPI'. *)
Theorem v1_detour_resets_mode : forall (f0 : Form) (es : list event) (s : string),
  s <> "Pending" ->
  exists f,
    getForm (run (es ++ [ChangeStatus "Pending"; ChangeStatus s])
               (ScriptV1.onDOMContentLoaded (page_of f0))) = Some f /\
    value (statusSel f) = s /\
    modeSel f = mkSelect "UPI" false.
Proof.
  intros f0 es s Hs. rewrite run_app.
  destruct (run_v1_coupled f0 es) as [Hl [f1 [Hf1 _]]].
  set (p1 := run es (ScriptV1.onDOMContentLoaded (page_of f0))) in *.
  unfold run. cbn [fold_left].
  destruct (step_change_status _ p1 f1 "Pending" Hl Hf1) as [Hf2 Hl2].
  destruct (step_change_status _ _ _ s Hl2 Hf2) as [Hf3 _].
  eexists. split; [exact Hf3 |].
  rewrite sync_v1_status. split; [reflexivity |].
  rewrite sync_v1_other by (cbn; exact Hs).
  cbn [modeSel with_status]. rewrite sync_v1_pending by reflexivity.
  reflexivity.
Qed.

(** X5 at the paid form, back to 'Paid'. *)
Lemma v1_detour_resets_mode_witness :
  "Paid" <> "Pending" /\
  exists f,
    getForm (run ([ChangeMode "Card"] ++ [ChangeStatus "Pending"; ChangeStatus "Paid"])
               (ScriptV1.onDOMContentLoaded (page_of paid_form))) = Some f /\
    value (statusSel f) = "Paid" /\
    modeSel f = mkSelect "UPI" false.
Proof.
  assert (H : "Paid" <> "Pending") by (intros E; discriminate E).
  split; [exact H |].
  exact (v1_detour_resets_mode paid_form [ChangeMode "Card"] "Paid" H).
Defined.

(** X6: in the second version, after the load and any events, a mode pick is
    taken exactly when the status is 'Paid': it is then the value of the mode
    selector, and stays so when 'Paid' is picked again; with any other status
    the pick changes nothing. *)
Theorem v2_mode_pick : forall (f0 : Form) (es : list event) (v : string),
  exists f, getForm (run es (ScriptV2.onDOMContentLoaded (page_of f0))) = Some f /\
    (value (statusSel f) = "Paid" ->
     exists f', getForm (run (es ++ [ChangeMode v; ChangeStatus "Paid"])
                           (ScriptV2.onDOMContentLoaded (page_of f0))) = Some f' /\
       statusSel f' = statusSel f /\ modeSel f' = mkSelect v false) /\
    (value (statusSel f) <> "Paid" ->
     run (es ++ [ChangeMode v]) (ScriptV2.onDOMContentLoaded (page_of f0))
     = run es (ScriptV2.onDOMContentLoaded (page_of f0))).
Proof.
  intros f0 es v. destruct (run_v2_coupled f0 es) as [Hl [f [Hf Hc]]].
  exists f. split; [exact Hf |].
  set (p := run es (ScriptV2.onDOMContentLoaded (page_of f0))) in *.
  destruct (step_change_mode p f v Hf) as [Hrefused Haccepted].
  split; intros Hs.
  - destruct Hc as [[_ Hd] | [Hn _]]; [| contradiction].
    destruct (Haccepted Hd) as [Hf1 Hl1]. rewrite Hl in Hl1.
    destruct (step_change_status _ _ _ "Paid" Hl1 Hf1) as [Hf2 _].
    rewrite run_app. fold p. unfold run. cbn [fold_left].
    eexists. split; [exact Hf2 |].
    rewrite sync_v2_status, sync_v2_paid by reflexivity.
    cbn. split; [| reflexivity].
    rewrite <- Hs. destruct (statusSel f); reflexivity.
  - destruct Hc as [[Hp _] | [_ Hm]]; [contradiction |].
    rewrite run_app. fold p. unfold run. cbn [fold_left].
    apply Hrefused. rewrite Hm. reflexivity.
Qed.

(** X7: in the first version, right after a status change, the mode selector
    holds the value 'Pending' exactly when it is disabled: an enabled selector
    never holds 'Pending'. *)
Theorem v1_sentinel_iff_disabled : forall (f : Form) (v : string),
  exists f', after_change ScriptV1.sync f v = Some f' /\
    (value (modeSel f') = "Pending" <-> disabled (modeSel f') = true).
Proof.
  intros f v. eexists. split; [apply after_change_eq |].
  set (g := with_status (set_value v (statusSel f)) f).
  destruct (String.eqb_spec (value (statusSel g)) "Pending") as [E | E].
  - rewrite (sync_v1_pending g E). cbn. split; reflexivity.
  - rewrite (sync_v1_other g E). cbn [value disabled].
    destruct (String.eqb_spec (value (modeSel g)) "Pending") as [Em | Em].
    + split; intros H; discriminate H.
    + split; [intros H; contradiction | intros H; discriminate H].
Qed.

(** X8: the two versions of [sync] agree on the disabled flag of the mode
    selector exactly for the statuses 'Paid' and 'Pending'. *)
Theorem versions_agree_on_flag : forall f : Form,
  disabled (modeSel (ScriptV1.sync f)) = disabled (modeSel (ScriptV2.sync f)) <->
  (value (statusSel f) = "Paid" \/ value (statusSel f) = "Pending").
Proof.
  intros f.
  destruct (String.eqb_spec (value (statusSel f)) "Pending") as [Ep | Ep];
    destruct (String.eqb_spec (value (statusSel f)) "Paid") as [Eq | Eq].
  - rewrite Ep in Eq. discriminate Eq.
  - rewrite (sync_v1_pending f Ep), (sync_v2_other f Eq). cbn.
    split; [intros _; right; exact Ep | reflexivity].
  - rewrite (sync_v1_other f Ep), (sync_v2_paid f Eq). cbn.
    split; [intros _; left; exact Eq | reflexivity].
  - rewrite (sync_v1_other f Ep), (sync_v2_other f Eq). cbn.
    split; [intros H; discriminate H | intros [H | H]; contradiction].
Qed.

End CouplingMore.

(** * Further properties of the percentages *)

Module ChartMore.
Import Charts ChartFacts.
Local Open Scope Q_scope.

(** Past the arcs of the meta, the first label ends the map. *)
Lemma map_from_legend_throws (chart : Chart) (values : list Q) (total : Q) :
  forall (lbls : list string) (i : nat),
    (0 < List.length lbls)%nat ->
    (List.length (meta_data chart) < i + List.length lbls)%nat ->
    map_from (legend_item chart values total) i lbls = Throw hidden_error.
Proof.
  induction lbls as [| lbl lbls IH]; intros i H0 H; cbn [List.length] in H0, H; [lia |].
  cbn [map_from]. rewrite legend_item_eq. unfold hidden_at.
  destruct (nth_error (meta_data chart) i) as [arc |] eqn:E; cbn [bind].
  - assert (i < List.length (meta_data chart))%nat
      by (apply nth_error_Some; rewrite E; discriminate).
    rewrite IH; [reflexivity | lia | lia].
  - reflexivity.
Qed.

(** X9: [generateLabels] returns the legend exactly when the dataset meta has
    an arc for each label; with more labels than arcs it ends in the
    TypeError of reading [hidden] of the missing arc, and returns no entry. *)
Theorem generateLabels_fails_iff : forall chart : Chart,
  ((exists items, generateLabels chart = Ok items) <->
   (List.length (labels chart) <= List.length (meta_data chart))%nat) /\
  (generateLabels chart = Throw hidden_error <->
   (List.length (meta_data chart) < List.length (labels chart))%nat).
Proof.
  intros chart.
  assert (Hthrow : (List.length (meta_data chart) < List.length (labels chart))%nat ->
                   generateLabels chart = Throw hidden_error).
  { intros H. unfold generateLabels. cbv zeta. apply map_from_legend_throws; lia. }
  split; split.
  - intros [items Hi].
    destruct (Nat.le_gt_cases (List.length (labels chart)) (List.length (meta_data chart)))
      as [Hle | Hgt]; [exact Hle |].
    rewrite (Hthrow Hgt) in Hi. discriminate Hi.
  - apply generateLabels_returns.
  - intros Ht.
    destruct (Nat.le_gt_cases (List.length (labels chart)) (List.length (meta_data chart)))
      as [Hle | Hgt]; [| exact Hgt].
    destruct (generateLabels_returns chart Hle) as [items Hi].
    rewrite Hi in Ht. discriminate Ht.
  - exact Hthrow.
Qed.

(** X10: every entry of a returned legend stands for the label and the arc
    of its own position: it carries that position as its index, the colours
    and the border width of the style of that position, and the hidden flag of
    the arc. *)
Theorem legend_entry_of_arc : forall (chart : Chart) (items : list LegendItem),
  generateLabels chart = Ok items ->
  forall (i : nat) (item : LegendItem),
    nth_error items i = Some item ->
    exists lbl arc,
      nth_error (labels chart) i = Some lbl /\
      nth_error (meta_data chart) i = Some arc /\
      index item = i /\
      hidden item = arc_hidden arc /\
      fillStyle item = backgroundColor (getStyle chart i) /\
      strokeStyle item = borderColor (getStyle chart i) /\
      lineWidth item = borderWidth (getStyle chart i).
Proof.
  intros chart items Hg i item Hi.
  unfold generateLabels in Hg. cbv zeta in Hg.
  destruct (map_from_ok _ _ _ _ Hg) as [Hlen Hnth].
  assert (Hlt : (i < List.length (labels chart))%nat).
  { rewrite <- Hlen. apply nth_error_Some. rewrite Hi. discriminate. }
  destruct (nth_error (labels chart) i) as [lbl |] eqn:El;
    [| apply nth_error_None in El; lia].
  destruct (Hnth i lbl El) as [item' [Hi' Hf]].
  rewrite Hi in Hi'. inversion Hi'; subst item'. clear Hi'.
  cbn [Nat.add] in Hf. rewrite legend_item_eq in Hf. unfold hidden_at in Hf.
  destruct (nth_error (meta_data chart) i) as [arc |] eqn:Ea; cbn [bind] in Hf;
    [| discriminate Hf].
  inversion Hf; subst item. exists lbl, arc. cbn. repeat split; reflexivity.
Qed.

(** X10 at the second slice of the example. *)
Lemma legend_entry_of_arc_witness :
  exists lbl arc,
    nth_error (labels donut_example) 1 = Some lbl /\
    nth_error (meta_data donut_example) 1 = Some arc /\
    index (mkLegendItem "Pending — 14.3% (50)" "#36a2eb" "#fff" 2 false 1) = 1%nat /\
    hidden (mkLegendItem "Pending — 14.3% (50)" "#36a2eb" "#fff" 2 false 1)
      = arc_hidden arc /\
    fillStyle (mkLegendItem "Pending — 14.3% (50)" "#36a2eb" "#fff" 2 false 1)
      = backgroundColor (getStyle donut_example 1) /\
    strokeStyle (mkLegendItem "Pending — 14.3% (50)" "#36a2eb" "#fff" 2 false 1)
      = borderColor (getStyle donut_example 1) /\
    lineWidth (mkLegendItem "Pending — 14.3% (50)" "#36a2eb" "#fff" 2 false 1)
      = borderWidth (getStyle donut_example 1).
Proof.
  exact (legend_entry_of_arc donut_example _ eq_refl 1%nat _ eq_refl).
Defined.

(** X11: the two tooltip callbacks write the same text when the dataset has
    its data; when the data are undefined, the callback of [percentOpts] falls
    back on no data and writes 0%, and the callback of the pie chart ends in a
    TypeError. *)
Theorem tooltips_compared : forall ctx : TooltipItem,
  (forall values, dataset_data ctx = Some values ->
     pie_tooltip_label ctx = tooltip_label ctx) /\
  (dataset_data ctx = None ->
     tooltip_label ctx
       = Ok (tooltip_text_format (label ctx) "0" (Number_toString (parsed ctx))) /\
     pie_tooltip_label ctx
       = Throw (TypeError "Cannot read properties of undefined (reading 'reduce')")).
Proof.
  intros ctx. split.
  - intros values H. rewrite (pie_tooltip_label_eq ctx values H), tooltip_label_eq.
    rewrite H. reflexivity.
  - intros H. split.
    + rewrite tooltip_label_eq, H. reflexivity.
    + unfold pie_tooltip_label. rewrite H. reflexivity.
Qed.

(** X12: with undefined or empty data the fallbacks [|| []] and [?? 0] take
    over: the formatter returns the empty string for every value, and every
    entry of a returned legend reads "{label} — 0% (0)". *)
Theorem no_data_fallbacks : forall chart : Chart,
  or_empty (data chart) = [] ->
  (forall value, formatter value chart = Ok ""%string) /\
  (forall items, generateLabels chart = Ok items ->
     List.length items = List.length (labels chart) /\
     forall i lbl, nth_error (labels chart) i = Some lbl ->
       exists item, nth_error items i = Some item /\
         text item = (lbl ++ " — 0% (0)")%string).
Proof.
  intros chart He. split.
  - intros value. rewrite formatter_eq, He. reflexivity.
  - intros items Hg. destruct (generateLabels_items _ _ Hg) as [Hlen Hnth].
    split; [exact Hlen |]. intros i lbl Hl.
    destruct (Hnth i lbl Hl) as [item [Hi [_ Ht]]].
    exists item. split; [exact Hi |]. rewrite Ht, He.
    unfold at_or_zero. destruct i; reflexivity.
Qed.

(** X12 at a chart whose dataset has no data. *)
Lemma no_data_fallbacks_witness :
  or_empty (data (mkChart ["Silk"] None [mkArc false] (getStyle donut_example))) = [] /\
  formatter 5 (mkChart ["Silk"] None [mkArc false] (getStyle donut_example))
    = Ok ""%string.
Proof.
  split; [reflexivity |].
  exact (proj1 (no_data_fallbacks
                  (mkChart ["Silk"] None [mkArc false] (getStyle donut_example))
                  eq_refl) 5).
Defined.

(** X14: with a positive total the on-chart labels follow the size of the
    slices: when the formatter writes a label for a value, it writes one for
    every value that is at least as large. *)
Theorem label_follows_size : forall (ctx : Chart) (v w : Q),
  0 < reduce_add (or_empty (data ctx)) ->
  v <= w ->
  formatter v ctx <> Ok ""%string ->
  formatter w ctx <> Ok ""%string.
Proof.
  intros ctx v w HT Hvw Hv.
  rewrite formatter_eq in *. cbv zeta in *.
  set (total := reduce_add (or_empty (data ctx))) in *.
  assert (Htr : truthy total = true).
  { apply truthy_nonzero. intros E. rewrite E in HT. discriminate HT. }
  rewrite Htr in *.
  destruct (Qle_bool 3 (v * 100 / total)) eqn:E3; [| exfalso; apply Hv; reflexivity].
  apply Qle_bool_iff in E3.
  assert (Hw : 3 <= w * 100 / total).
  { apply Qle_trans with (v * 100 / total); [exact E3 |].
    unfold Qdiv. apply Qmult_le_compat_r; [lra |].
    apply Qinv_le_0_compat, Qlt_le_weak, HT. }
  apply Qle_bool_iff in Hw. rewrite Hw.
  intros H. injection H as H'.
  assert (Hp : "%"%string <> ""%string) by discriminate.
  exact (append_nonempty _ _ Hp H').
Qed.

(** X14 at the two slices of the example. *)
Lemma label_follows_size_witness :
  0 < reduce_add (or_empty (data donut_example)) /\ 50 <= 300 /\
  formatter 50 donut_example <> Ok ""%string /\
  formatter 300 donut_example <> Ok ""%string.
Proof.
  assert (H1 : 0 < reduce_add (or_empty (data donut_example))) by reflexivity.
  assert (H2 : 50 <= 300) by (intros E; discriminate E).
  assert (H3 : formatter 50 donut_example <> Ok ""%string) by (intros E; discriminate E).
  split; [exact H1 |]. split; [exact H2 |]. split; [exact H3 |].
  exact (label_follows_size donut_example 50 300 H1 H2 H3).
Defined.

End ChartMore.

(** * Properties of the charts that the handler creates *)

Module DashboardMore.
Import Dashboard.

Lemma when_defined_map {A : Type} (f : Config -> A) (g : option Aggregate)
    (mk : Aggregate -> Config) :
  map f (when_defined g mk)
  = match g with Some a => [f (mk a)] | None => [] end.
Proof. destruct g; reflexivity. Qed.

(** X15: both versions of the handler draw the same charts: the same
    canvases in the same order, each with the same type, labels, dataset label
    and data; the second version only adds options and plugins. *)
Theorem versions_draw_same_charts : forall w : Window,
  map drawn (createCharts_v2 w) = map drawn (createCharts_v1 w).
Proof.
  intros w. unfold createCharts_v1, createCharts_v2.
  rewrite !map_app, !when_defined_map.
  destruct (__monthlyChart w), (__typeChart w), (__donut w), (__monthlyPaid w);
    reflexivity.
Qed.

(** X16: the second version of the handler creates one chart for each
    defined binding and none for an undefined one: no canvas is used twice,
    every chart has the labels and the data of the binding of its canvas,
    unchanged, and only the pie and the doughnut chart get options or
    plugins, the plugin exactly when the extension is loaded. *)
Theorem one_chart_per_binding : forall w : Window,
  NoDup (map canvas (createCharts_v2 w)) /\
  List.length (createCharts_v2 w) = defined_count w /\
  forall c, In c (createCharts_v2 w) ->
    (exists g, In (canvas c, Some g) (bindings w) /\
       chart_labels c = labels g /\ dataset_data c = data g) /\
    (type c = bar -> options c = None /\ plugins c = []) /\
    (type c <> bar ->
     options c <> None /\
     plugins c = if ChartDataLabels w then [ChartDataLabelsPlugin] else []).
Proof.
  intros w. unfold createCharts_v2, defined_count, bindings, datalabels_plugin.
  destruct (__monthlyChart w) as [g1 |], (__typeChart w) as [g2 |],
    (__donut w) as [g3 |], (__monthlyPaid w) as [g4 |]; cbn;
    (split; [repeat (apply NoDup_cons; [cbn; intuition discriminate |]); apply NoDup_nil |]);
    (split; [reflexivity |]);
    intros c Hc;
    repeat (destruct Hc as [Hc | Hc]; [subst c; cbn |]); try contradiction;
    (split; [eexists; split; [| split; reflexivity]; tauto |]);
    (split; [intros H; try discriminate H; (split; reflexivity)
            | intros H; try (exfalso; apply H; reflexivity);
              (split; [intros E; discriminate E | reflexivity])]).
Qed.

End DashboardMore.
